(** * ClickHouse connector for Evidence: a shallow embedding of [src/index.js]

    The connector exports [options], [getRunner] and [testConnection].
    [getRunner] builds a client handle with the vendor's [createClient] and
    returns an asynchronous closure that submits one query, materialises the
    answer with [rows.json()] and wraps it in the host's result envelope.

    The embedding keeps the shape of the JavaScript:
    - JavaScript values are the inductive [JsValue] (numbers are IEEE doubles);
    - an object is the list of its own properties in key-enumeration order;
    - effects (console output, calls into the vendor client) are appended to a
      trace, and a [throw] or a rejected promise is the left summand of the
      result: the monad [Js];
    - the vendor's [createClient] is not code of the connector, so it is a
      variable of the section holding [getRunner]. *)

From Stdlib Require Import List String Bool Arith Lia.
From Stdlib Require Import Floats.PrimFloat.
Import ListNotations.
Open Scope string_scope.
Open Scope list_scope.

Set Warnings "-register-all".

(** ** JavaScript values *)

Module Value.

(** The values a JSON document can hold, and [undefined]. *)
Inductive JsValue : Type :=
| JsUndefined
| JsNull
| JsBool (b : bool)
| JsNumber (x : float)
| JsString (s : string)
| JsArray (items : list JsValue)
| JsObject (props : list (string * JsValue)).

(** The [typeof] operator. *)
Definition typeof (v : JsValue) : string :=
  match v with
  | JsUndefined => "undefined"
  | JsNull => "object"
  | JsBool _ => "boolean"
  | JsNumber _ => "number"
  | JsString _ => "string"
  | JsArray _ => "object"
  | JsObject _ => "object"
  end.

(** An object with property values in [V]: its own enumerable properties,
    listed in key-enumeration order. *)
Definition Obj (V : Type) : Type := list (string * V).

(** [Object.keys(o)] *)
Definition Object_keys {V} (o : Obj V) : list string := map fst o.

(** [o[key]]; [None] stands for [undefined]. *)
Fixpoint obj_get {V} (key : string) (o : Obj V) : option V :=
  match o with
  | [] => None
  | (k, v) :: rest => if String.eqb k key then Some v else obj_get key rest
  end.

(** [a || b] where [a] is an object or [undefined]: objects are truthy. *)
Definition or_else {A} (a : option A) (b : A) : A :=
  match a with
  | Some x => x
  | None => b
  end.

(** A string-typed value inside a template literal: [`${v}`]. *)
Definition template (v : option string) : string :=
  match v with
  | Some s => s
  | None => "undefined"
  end.

(** The [TypeError] of reading a property of [undefined]. *)
Definition TypeError_undefined (key : string) : JsValue :=
  JsObject
    [("name", JsString "TypeError");
     ("message",
      JsString ("Cannot read properties of undefined (reading '" ++ key ++ "')")%string)].

End Value.
Import Value.

(** ** The collaborators: the vendor client and the host's type enums *)

(** [EvidenceType] of [@evidence-dev/db-commons]. *)
Inductive EvidenceType : Type := BOOLEAN | NUMBER | STRING | DATE.

(** A row as [JSONEachRow] delivers it: one object per record. *)
Definition Row : Type := Obj JsValue.

(** The argument of [createClient]. *)
Record ClientConfig : Type := mkClientConfig {
  cfg_url : option string;
  cfg_username : option string;
  cfg_password : option string
}.

(** The argument of [client.query]. *)
Record QueryParams : Type := mkQueryParams {
  query : string;
  format : string
}.

(** What [await rows.json()] gives: a rejection or the parsed records. *)
Record ResultSet : Type := mkResultSet {
  json : JsValue + list Row
}.

(** A client handle: [await client.query(params)] rejects or gives a
    result set. *)
Record Client : Type := mkClient {
  client_query : QueryParams -> JsValue + ResultSet
}.

(** ** Effects *)

Inductive Event : Type :=
| EConsoleDebug (args : list JsValue)
| EConsoleError (args : list JsValue)
| ECreateClient (cfg : ClientConfig)
| EClientQuery (params : QueryParams)
| EResultJson.

Definition Trace : Type := list Event.

(** A computation appends to the trace and either throws a value or
    returns one. *)
Definition Js (A : Type) : Type := Trace -> Trace * (JsValue + A).

Definition ret {A} (a : A) : Js A := fun t => (t, inr a).

Definition throw {A} (e : JsValue) : Js A := fun t => (t, inl e).

Definition bind {A B} (m : Js A) (k : A -> Js B) : Js B :=
  fun t =>
    match m t with
    | (t', inl e) => (t', inl e)
    | (t', inr a) => k a t'
    end.

Definition try_catch {A} (body : Js A) (handler : JsValue -> Js A) : Js A :=
  fun t =>
    match body t with
    | (t', inl e) => handler e t'
    | (t', inr a) => (t', inr a)
    end.

Definition emit (ev : Event) : Js unit := fun t => (t ++ [ev], inr tt).

(** An external call: it is recorded, then it throws or returns. *)
Definition call {A} (ev : Event) (outcome : JsValue + A) : Js A :=
  fun t => (t ++ [ev], outcome).

Declare Scope js_scope.
Delimit Scope js_scope with js.
Notation "x <- m ;; k" := (bind m (fun x => k))
  (at level 61, m at next level, right associativity) : js_scope.
Notation "m ;;; k" := (bind m (fun _ => k))
  (at level 61, right associativity) : js_scope.
Open Scope js_scope.

(** [xs.map(f)] with a callback that may throw. *)
Fixpoint array_map {A B} (f : A -> Js B) (xs : list A) : Js (list B) :=
  match xs with
  | [] => ret []
  | x :: rest =>
      y <- f x ;;
      ys <- array_map f rest ;;
      ret (y :: ys)
  end.

Definition console_debug (args : list JsValue) : Js unit :=
  emit (EConsoleDebug args).

Definition console_error (args : list JsValue) : Js unit :=
  emit (EConsoleError args).

(** [row[key]] on a row: [undefined] when the row has no such property. *)
Definition row_get (row : Row) (key : string) : JsValue :=
  match obj_get key row with
  | Some v => v
  | None => JsUndefined
  end.

(** [result[0][key]]: a [TypeError] when [result[0]] is [undefined]. *)
Definition member (row : option Row) (key : string) : Js JsValue :=
  match row with
  | None => throw (TypeError_undefined key)
  | Some r => ret (row_get r key)
  end.

(** ** The connector *)

(** One entry of the exported [options] specification. *)
Record OptionSpec : Type := mkOptionSpec {
  title : string;
  description : option string;
  type : string;
  secret : bool
}.

(** [export const options] *)
Definition options : Obj OptionSpec :=
  [("url", mkOptionSpec "URL" (Some "Clickhouse instance URL") "string" false);
   ("username", mkOptionSpec "Username" None "string" false);
   ("password", mkOptionSpec "Password" None "string" true)].

(** The options object the host hands over: every declared option is a
    string, an option left out reads as [undefined]. *)
Definition ConnectorOptions : Type := Obj string.

Record ColumnType : Type := mkColumnType {
  name : string;
  evidenceType : EvidenceType;
  typeFidelity : string
}.

Record QueryResult : Type := mkQueryResult {
  rows : list Row;
  columnTypes : list ColumnType;
  expectedRowCount : nat
}.

(** The descriptor literal of the [map] callback, for column [key] whose
    first-row value reads [v]. *)
Definition descriptor (key : string) (v : JsValue) : ColumnType :=
  {| name := key;
     evidenceType := if String.eqb (typeof v) "number" then NUMBER else STRING;
     typeFidelity := "inferred" |}.

(** The closure [async (queryText, queryPath) => { ... }] that [getRunner]
    returns, over the [client] it captured. *)
Definition runner (client : Client) (queryText : string) (queryPath : JsValue)
  : Js QueryResult :=
  try_catch
    (let params := {| query := queryText; format := "JSONEachRow" |} in
     rs <- call (EClientQuery params) (client_query client params) ;;
     result <- call EResultJson (json rs) ;;
     cols <- array_map
               (fun key =>
                  v <- member (nth_error result 0) key ;;
                  ret (descriptor key v))
               (Object_keys (or_else (nth_error result 0) [])) ;;
     let output :=
       {| rows := result;
          columnTypes := cols;
          expectedRowCount := List.length result |} in
     ret output)
    (fun error =>
       console_error [JsString "Error executing query:"; error] ;;;
       throw error).

(** The object literal handed to [createClient]. *)
Definition client_config (options : ConnectorOptions) : ClientConfig :=
  {| cfg_url := obj_get "url" options;
     cfg_username := obj_get "username" options;
     cfg_password := obj_get "password" options |}.

Section Connector.

(** [createClient] of [@clickhouse/client]: it builds a handle in memory, or
    throws when it refuses the configuration. *)
Variable createClient : ClientConfig -> JsValue + Client.

(** [export const getRunner = (options) => { ... }] *)
Definition getRunner (options : ConnectorOptions)
  : Js (string -> JsValue -> Js QueryResult) :=
  console_debug
    [JsString ("SomeOption = " ++ template (obj_get "SomeOption" options))%string] ;;;
  client <- call (ECreateClient (client_config options))
                 (createClient (client_config options)) ;;
  ret (runner client).

End Connector.

(** [export const testConnection = async (opts) => { return true; }] *)
Definition testConnection (opts : ConnectorOptions) : Js bool := ret true.

(** ** Vocabulary of the statements *)

(** What the vendor client answers to a query text asked in [JSONEachRow]:
    the rejection of [client.query] or of [rows.json()], or the records. *)
Definition client_response (client : Client) (queryText : string)
  : JsValue + list Row :=
  match client_query client {| query := queryText; format := "JSONEachRow" |} with
  | inl e => inl e
  | inr rs => json rs
  end.

(** The value a failed call raises, if it failed. *)
Definition failure_of {A} (r : JsValue + A) : option JsValue :=
  match r with
  | inl e => Some e
  | inr _ => None
  end.

Definition is_console (ev : Event) : bool :=
  match ev with
  | EConsoleDebug _ | EConsoleError _ => true
  | _ => false
  end.

(** Submitting a query and reading its answer are the calls that reach the
    server. *)
Definition is_network_io (ev : Event) : bool :=
  match ev with
  | EClientQuery _ | EResultJson => true
  | _ => false
  end.

Definition is_handle_setup (ev : Event) : bool :=
  match ev with
  | ECreateClient _ => true
  | _ => false
  end.

Definition is_query (ev : Event) : bool :=
  match ev with
  | EClientQuery _ => true
  | _ => false
  end.

(** The diagnostic output found in a trace. *)
Definition console_of (t : Trace) : list Event := filter is_console t.

(** The number of distinct strings in a list. *)
Definition distinct_count (keys : list string) : nat :=
  List.length (nodup string_dec keys).

(** No string occurs twice, as among the keys of any JavaScript object. *)
Fixpoint distinct (keys : list string) : bool :=
  match keys with
  | [] => true
  | k :: rest => negb (existsb (String.eqb k) rest) && distinct rest
  end.

(** Two options objects that agree on every property but [password]. *)
Definition option_eqb (a b : option string) : bool :=
  match a, b with
  | Some x, Some y => String.eqb x y
  | None, None => true
  | _, _ => false
  end.

Definition same_but_password (opts1 opts2 : ConnectorOptions) : bool :=
  forallb
    (fun key =>
       String.eqb key "password"
       || option_eqb (obj_get key opts1) (obj_get key opts2))
    (Object_keys opts1 ++ Object_keys opts2).

(** The failure the client raises for a query, if a handle was built for the
    options and the query failed on it. *)
Definition query_failure (createClient : ClientConfig -> JsValue + Client)
  (opts : ConnectorOptions) (queryText : string) : option JsValue :=
  match createClient (client_config opts) with
  | inl _ => None
  | inr client => failure_of (client_response client queryText)
  end.

(** The host's use of the connector: build the runner, run one query. *)
Definition session (createClient : ClientConfig -> JsValue + Client)
  (opts : ConnectorOptions) (queryText : string) (queryPath : JsValue)
  : Js QueryResult :=
  run <- getRunner createClient opts ;;
  run queryText queryPath.

(** Sample collaborators: a client that answers every query with a fixed
    response, and one whose [query] call is rejected. *)
Definition answering_client (response : JsValue + list Row) : Client :=
  {| client_query := fun _ => inr {| json := response |} |}.

Definition rejecting_client (e : JsValue) : Client :=
  {| client_query := fun _ => inl e |}.

Definition sample_rows : list Row :=
  [ [("a", JsNumber 1); ("b", JsString "x")];
    [("a", JsNumber 2.5); ("b", JsString "y")] ].

Definition network_error : JsValue :=
  JsObject [("name", JsString "Error"); ("message", JsString "ECONNREFUSED")].

Definition sample_options : ConnectorOptions :=
  [("url", "http://localhost:8123"); ("username", "default");
   ("password", "hunter2")].

Definition other_password : ConnectorOptions :=
  [("url", "http://localhost:8123"); ("username", "default");
   ("password", "correct horse")].

(** A factory whose handles reject every query: the server is unreachable. *)
Definition unreachable (cfg : ClientConfig) : JsValue + Client :=
  inr (rejecting_client network_error).

Definition is_json (ev : Event) : bool :=
  match ev with
  | EResultJson => true
  | _ => false
  end.

(** Every property of an options object is one the exported [options]
    specification declares. *)
Definition declared (opts : ConnectorOptions) : bool :=
  forallb (fun key => existsb (String.eqb key) (Object_keys options))
          (Object_keys opts).

(** A factory that throws [e] for every configuration. *)
Definition refusing (e : JsValue) (cfg : ClientConfig) : JsValue + Client :=
  inl e.

Definition invalid_url : JsValue :=
  JsObject [("name", JsString "TypeError"); ("message", JsString "Invalid URL")].

Definition more_options : ConnectorOptions :=
  [("database", "analytics"); ("url", "http://localhost:8123");
   ("username", "default"); ("password", "hunter2")].

(** The whole answer is one record without columns. *)
Definition keyless_rows : list Row := [ [] ].

(** A failure that quotes the credentials a handle was built with. *)
Definition auth_failure (cfg : ClientConfig) : JsValue :=
  JsObject
    [("name", JsString "Error");
     ("message",
      JsString ("Authentication failed: " ++ template (cfg_username cfg)
                ++ ":" ++ template (cfg_password cfg))%string)].

(** A factory whose handles reject every query with such a failure. *)
Definition quoting_credentials (cfg : ClientConfig) : JsValue + Client :=
  inr (rejecting_client (auth_failure cfg)).

(** ** The monad and the [map] over the first row's keys *)

Lemma bind_returns {A B} (m : Js A) (k : A -> Js B) (t t' : Trace) (a : A) :
  m t = (t', inr a) -> bind m k t = k a t'.
Proof.
  intros H. unfold bind. now rewrite H.
Qed.

Lemma bind_throws {A B} (m : Js A) (k : A -> Js B) (t t' : Trace) (e : JsValue) :
  m t = (t', inl e) -> bind m k t = (t', inl e).
Proof.
  intros H. unfold bind. now rewrite H.
Qed.

Lemma array_map_total {A B} (f : A -> Js B) (g : A -> B) (xs : list A) (t : Trace) :
  (forall x t', In x xs -> f x t' = (t', inr (g x))) ->
  array_map f xs t = (t, inr (map g xs)).
Proof.
  revert t. induction xs as [|x rest IH]; intros t Hf.
  - reflexivity.
  - cbn [array_map map]. unfold bind at 1.
    rewrite (Hf x t (or_introl eq_refl)).
    unfold bind at 1. rewrite IH.
    + reflexivity.
    + intros y t' Hy. apply Hf. now right.
Qed.

(** With a first row at hand the callback never throws. *)
Lemma callback_first_row (result : list Row) (first : Row) (key : string) (t : Trace) :
  nth_error result 0 = Some first ->
  (v <- member (nth_error result 0) key ;; ret (descriptor key v)) t
  = (t, inr (descriptor key (row_get first key))).
Proof.
  intros ->. reflexivity.
Qed.

(** The columns of a result, as the callback computes them. *)
Lemma columns_of_result (result : list Row) (t : Trace) :
  array_map
    (fun key => v <- member (nth_error result 0) key ;; ret (descriptor key v))
    (Object_keys (or_else (nth_error result 0) [])) t
  = (t, inr (map (fun key => descriptor key (row_get (or_else (nth_error result 0) []) key))
                 (Object_keys (or_else (nth_error result 0) [])))).
Proof.
  destruct result as [|first rest].
  - reflexivity.
  - apply array_map_total. intros key t' _.
    now apply callback_first_row.
Qed.

(** ** The two paths of the runner *)

Lemma runner_returns (client : Client) (queryText : string) (queryPath : JsValue)
  (t : Trace) (result : list Row) :
  client_response client queryText = inr result ->
  runner client queryText queryPath t
  = (t ++ [EClientQuery {| query := queryText; format := "JSONEachRow" |};
           EResultJson],
     inr {| rows := result;
            columnTypes :=
              map (fun key => descriptor key
                                (row_get (or_else (nth_error result 0) []) key))
                  (Object_keys (or_else (nth_error result 0) []));
            expectedRowCount := List.length result |}).
Proof.
  unfold client_response. intros H.
  destruct (client_query client _) as [e|rs] eqn:Hq; [discriminate|].
  unfold runner, try_catch; cbv zeta.
  erewrite bind_returns by (unfold call; rewrite Hq; reflexivity).
  erewrite bind_returns by (unfold call; rewrite H; reflexivity).
  erewrite bind_returns by apply columns_of_result.
  unfold ret. rewrite <- app_assoc. reflexivity.
Qed.

Lemma runner_throws (client : Client) (queryText : string) (queryPath : JsValue)
  (t : Trace) (e : JsValue) :
  client_response client queryText = inl e ->
  exists calls,
    runner client queryText queryPath t
    = (t ++ calls ++ [EConsoleError [JsString "Error executing query:"; e]],
       inl e)
    /\ console_of calls = []
    /\ List.length (filter is_query calls) = 1.
Proof.
  unfold client_response. intros H.
  destruct (client_query client _) as [e'|rs] eqn:Hq.
  - injection H as ->.
    exists [EClientQuery {| query := queryText; format := "JSONEachRow" |}].
    unfold runner, try_catch; cbv zeta.
    erewrite bind_throws by (unfold call; rewrite Hq; reflexivity).
    cbn. rewrite <- app_assoc. repeat split.
  - exists [EClientQuery {| query := queryText; format := "JSONEachRow" |}; EResultJson].
    unfold runner, try_catch; cbv zeta.
    erewrite bind_returns by (unfold call; rewrite Hq; reflexivity).
    erewrite bind_throws by (unfold call; rewrite H; reflexivity).
    cbn. rewrite <- !app_assoc. repeat split.
Qed.

Lemma console_of_app (t1 t2 : Trace) :
  console_of (t1 ++ t2) = console_of t1 ++ console_of t2.
Proof.
  apply filter_app.
Qed.

(** What the runner writes to the console is decided by the failure the
    client raised, if any. *)
Lemma console_of_runner (client : Client) (queryText : string) (queryPath : JsValue)
  (t : Trace) :
  console_of (fst (runner client queryText queryPath t))
  = console_of t ++
    match failure_of (client_response client queryText) with
    | Some e => [EConsoleError [JsString "Error executing query:"; e]]
    | None => []
    end.
Proof.
  destruct (client_response client queryText) as [e|result] eqn:H.
  - destruct (runner_throws client queryText queryPath t e H) as (calls & -> & Hc & _).
    cbn [fst failure_of]. rewrite !console_of_app, Hc. reflexivity.
  - rewrite (runner_returns client queryText queryPath t result H).
    cbn [fst failure_of]. rewrite console_of_app. reflexivity.
Qed.

Lemma getRunner_eq (createClient : ClientConfig -> JsValue + Client)
  (opts : ConnectorOptions) (t : Trace) :
  getRunner createClient opts t
  = (t ++ [EConsoleDebug
             [JsString ("SomeOption = " ++ template (obj_get "SomeOption" opts))%string];
           ECreateClient (client_config opts)],
     match createClient (client_config opts) with
     | inl e => inl e
     | inr client => inr (runner client)
     end).
Proof.
  unfold getRunner, bind, console_debug, emit, call, ret.
  rewrite <- app_assoc.
  destruct (createClient (client_config opts)); reflexivity.
Qed.

Lemma console_of_construction (t : Trace) (args : list JsValue) (cfg : ClientConfig) :
  console_of (t ++ [EConsoleDebug args; ECreateClient cfg])
  = console_of t ++ [EConsoleDebug args].
Proof.
  rewrite console_of_app. reflexivity.
Qed.

(** The console output of a session: the debug entry, then the error entry
    if the query failed. *)
Lemma console_of_session (createClient : ClientConfig -> JsValue + Client)
  (opts : ConnectorOptions) (queryText : string) (queryPath : JsValue) (t : Trace) :
  console_of (fst (session createClient opts queryText queryPath t))
  = (console_of t
     ++ [EConsoleDebug
           [JsString ("SomeOption = " ++ template (obj_get "SomeOption" opts))%string]])
    ++ match query_failure createClient opts queryText with
       | Some e => [EConsoleError [JsString "Error executing query:"; e]]
       | None => []
       end.
Proof.
  unfold session, bind, query_failure. rewrite getRunner_eq.
  destruct (createClient (client_config opts)) as [e|client]; cbn [fst].
  - rewrite console_of_construction, app_nil_r. reflexivity.
  - rewrite console_of_runner, console_of_construction. reflexivity.
Qed.

Lemma obj_get_absent {V} (key : string) (o : Obj V) :
  ~ In key (Object_keys o) -> obj_get key o = None.
Proof.
  induction o as [|[k v] rest IH]; cbn; intros Hnot.
  - reflexivity.
  - destruct (String.eqb_spec k key) as [->|_].
    + exfalso. apply Hnot. now left.
    + apply IH. intros Hin. apply Hnot. now right.
Qed.

Lemma option_eqb_eq (a b : option string) :
  option_eqb a b = true -> a = b.
Proof.
  destruct a as [x|], b as [y|]; cbn; try discriminate; try reflexivity.
  intros H. apply String.eqb_eq in H. now subst.
Qed.

Lemma same_but_password_agree (opts1 opts2 : ConnectorOptions) (key : string) :
  same_but_password opts1 opts2 = true ->
  key <> "password" ->
  obj_get key opts1 = obj_get key opts2.
Proof.
  unfold same_but_password. intros Hsame Hkey.
  destruct (in_dec string_dec key (Object_keys opts1 ++ Object_keys opts2))
    as [Hin|Hout].
  - rewrite forallb_forall in Hsame. specialize (Hsame key Hin).
    apply orb_true_iff in Hsame as [Hpw|Heq].
    + apply String.eqb_eq in Hpw. contradiction.
    + now apply option_eqb_eq.
  - rewrite !obj_get_absent; [reflexivity| |];
      intros Hin; apply Hout, in_or_app; auto.
Qed.

Lemma distinct_NoDup (keys : list string) :
  distinct keys = true -> NoDup keys.
Proof.
  induction keys as [|k rest IH]; cbn [distinct]; intros H.
  - constructor.
  - apply andb_true_iff in H as [Hk Hrest].
    constructor; [|now apply IH].
    intros Hin. apply negb_true_iff in Hk.
    assert (existsb (String.eqb k) rest = true) as Hex.
    { apply existsb_exists. exists k. split; [assumption|apply String.eqb_refl]. }
    congruence.
Qed.

Lemma distinct_count_distinct (keys : list string) :
  distinct keys = true -> distinct_count keys = List.length keys.
Proof.
  intros H. unfold distinct_count.
  now rewrite (nodup_fixed_point string_dec (distinct_NoDup keys H)).
Qed.

Lemma descriptor_kind (key : string) (v : JsValue) :
  (evidenceType (descriptor key v) = NUMBER <-> typeof v = "number")
  /\ (evidenceType (descriptor key v) = STRING <-> typeof v <> "number").
Proof.
  unfold descriptor; cbn [evidenceType].
  destruct (String.eqb_spec (typeof v) "number") as [E|E];
    repeat split; intros; try congruence.
Qed.

(** ** Column types *)

(** C1: the inferred kind of a column is decided by the first row alone.  Two
    runs whose answers start with the same first row give the same column
    types; the column of each key of that row is NUMBER exactly when
    [typeof] of the first-row value is ["number"], and STRING exactly when it
    is anything else (string, null, boolean, object, undefined). *)
Theorem column_kind_from_first_row
  (client1 client2 : Client) (q1 q2 : string) (p1 p2 : JsValue) (t1 t2 : Trace)
  (first : Row) (rest1 rest2 : list Row) :
  client_response client1 q1 = inr (first :: rest1) ->
  client_response client2 q2 = inr (first :: rest2) ->
  exists t1' t2' out1 out2,
    runner client1 q1 p1 t1 = (t1', inr out1)
    /\ runner client2 q2 p2 t2 = (t2', inr out2)
    /\ columnTypes out1 = columnTypes out2
    /\ forall i key,
         nth_error (Object_keys first) i = Some key ->
         exists c,
           nth_error (columnTypes out1) i = Some c
           /\ name c = key
           /\ (evidenceType c = NUMBER <-> typeof (row_get first key) = "number")
           /\ (evidenceType c = STRING <-> typeof (row_get first key) <> "number").
Proof.
  intros H1 H2.
  rewrite (runner_returns client1 q1 p1 t1 _ H1).
  rewrite (runner_returns client2 q2 p2 t2 _ H2).
  do 4 eexists. split; [reflexivity|]. split; [reflexivity|].
  cbn [columnTypes nth_error or_else]. split; [reflexivity|].
  intros i key Hi.
  exists (descriptor key (row_get first key)). split.
  - rewrite nth_error_map, Hi. reflexivity.
  - split; [reflexivity|]. apply descriptor_kind.
Qed.

Lemma column_kind_from_first_row_witness :
  exists t1' t2' out1 out2,
    runner (answering_client (inr sample_rows)) "SELECT a, b FROM t" JsUndefined []
    = (t1', inr out1)
    /\ runner (answering_client (inr [hd [] sample_rows])) "SELECT 1 as a, 'x' as b"
         (JsString "sources/ch/q.sql") []
       = (t2', inr out2)
    /\ columnTypes out1 = columnTypes out2
    /\ forall i key,
         nth_error (Object_keys (hd [] sample_rows)) i = Some key ->
         exists c,
           nth_error (columnTypes out1) i = Some c
           /\ name c = key
           /\ (evidenceType c = NUMBER
               <-> typeof (row_get (hd [] sample_rows) key) = "number")
           /\ (evidenceType c = STRING
               <-> typeof (row_get (hd [] sample_rows) key) <> "number").
Proof.
  apply (column_kind_from_first_row
           (answering_client (inr sample_rows))
           (answering_client (inr [hd [] sample_rows]))
           "SELECT a, b FROM t" "SELECT 1 as a, 'x' as b"
           JsUndefined (JsString "sources/ch/q.sql") [] []
           (hd [] sample_rows) (tl sample_rows) []);
    reflexivity.
Defined.

(** C2: the column types follow the keys of the first row.  When the client
    answers with rows that are objects (no key twice), the names of the
    column types are the keys of the first row in enumeration order, there
    are as many of them as the first row has distinct keys, an empty answer
    gives no column types, and any other answer with the same first row (or
    equally none) gives the same column types. *)
Theorem columns_follow_first_row_keys
  (client : Client) (queryText : string) (queryPath : JsValue) (t : Trace)
  (result : list Row) :
  client_response client queryText = inr result ->
  forallb (fun r => distinct (Object_keys r)) result = true ->
  exists t' out,
    runner client queryText queryPath t = (t', inr out)
    /\ (result = [] -> columnTypes out = [])
    /\ (forall first rest,
          result = first :: rest ->
          map name (columnTypes out) = Object_keys first
          /\ List.length (columnTypes out) = distinct_count (Object_keys first))
    /\ (forall client2 q2 p2 t2 result2,
          client_response client2 q2 = inr result2 ->
          nth_error result2 0 = nth_error result 0 ->
          exists t2' out2,
            runner client2 q2 p2 t2 = (t2', inr out2)
            /\ columnTypes out2 = columnTypes out).
Proof.
  intros H Hwf.
  rewrite (runner_returns client queryText queryPath t _ H).
  do 2 eexists. split; [reflexivity|]. cbn [columnTypes].
  split; [|split].
  - intros ->. reflexivity.
  - intros first rest ->. cbn [nth_error or_else].
    cbn [forallb] in Hwf. apply andb_true_iff in Hwf as [Hfirst _].
    split.
    + rewrite map_map. cbn [descriptor name]. apply map_id.
    + rewrite length_map. symmetry. now apply distinct_count_distinct.
  - intros client2 q2 p2 t2 result2 H2 Hsame.
    rewrite (runner_returns client2 q2 p2 t2 _ H2).
    do 2 eexists. split; [reflexivity|].
    cbn [columnTypes]. rewrite Hsame. reflexivity.
Qed.

Lemma columns_follow_first_row_keys_witness :
  exists t' out,
    runner (answering_client (inr sample_rows)) "SELECT a, b FROM t" JsNull []
    = (t', inr out)
    /\ (sample_rows = [] -> columnTypes out = [])
    /\ (forall first rest,
          sample_rows = first :: rest ->
          map name (columnTypes out) = Object_keys first
          /\ List.length (columnTypes out) = distinct_count (Object_keys first))
    /\ (forall client2 q2 p2 t2 result2,
          client_response client2 q2 = inr result2 ->
          nth_error result2 0 = nth_error sample_rows 0 ->
          exists t2' out2,
            runner client2 q2 p2 t2 = (t2', inr out2)
            /\ columnTypes out2 = columnTypes out).
Proof.
  apply (columns_follow_first_row_keys
           (answering_client (inr sample_rows)) "SELECT a, b FROM t" JsNull []
           sample_rows);
    reflexivity.
Defined.

(** ** Rows and their count *)

(** C3: when the client answers with rows, the runner returns a result whose
    [expectedRowCount] is the length of its [rows]; it is 0 for an empty
    answer. *)
Theorem expectedRowCount_is_length
  (client : Client) (queryText : string) (queryPath : JsValue) (t : Trace)
  (result : list Row) :
  client_response client queryText = inr result ->
  exists t' out,
    runner client queryText queryPath t = (t', inr out)
    /\ expectedRowCount out = List.length (rows out)
    /\ expectedRowCount out = List.length result
    /\ (result = [] -> expectedRowCount out = 0).
Proof.
  intros H.
  rewrite (runner_returns client queryText queryPath t _ H).
  do 2 eexists. split; [reflexivity|]. cbn [expectedRowCount rows].
  repeat split. intros ->. reflexivity.
Qed.

Lemma expectedRowCount_is_length_witness :
  exists t' out,
    runner (answering_client (inr [])) "SELECT 1 WHERE 0" JsUndefined []
    = (t', inr out)
    /\ expectedRowCount out = List.length (rows out)
    /\ expectedRowCount out = List.length (@nil Row)
    /\ (@nil Row = [] -> expectedRowCount out = 0).
Proof.
  apply (expectedRowCount_is_length
           (answering_client (inr [])) "SELECT 1 WHERE 0" JsUndefined [] []).
  reflexivity.
Defined.

(** C4: the rows the client delivers are the rows of the result, value for
    value: nothing is coerced to the inferred column type. *)
Theorem rows_pass_through
  (client : Client) (queryText : string) (queryPath : JsValue) (t : Trace)
  (result : list Row) :
  client_response client queryText = inr result ->
  exists t' out,
    runner client queryText queryPath t = (t', inr out)
    /\ rows out = result.
Proof.
  intros H.
  rewrite (runner_returns client queryText queryPath t _ H).
  do 2 eexists. split; reflexivity.
Qed.

Lemma rows_pass_through_witness :
  exists t' out,
    runner (answering_client (inr sample_rows)) "SELECT a, b FROM t" JsUndefined []
    = (t', inr out)
    /\ rows out = sample_rows.
Proof.
  apply (rows_pass_through
           (answering_client (inr sample_rows)) "SELECT a, b FROM t" JsUndefined []
           sample_rows).
  reflexivity.
Defined.

(** The scenario of the specification: one record [{"a":1,"b":"x"}]. *)
Example scenario_select_1_a_x_b :
  runner (answering_client (inr [[("a", JsNumber 1); ("b", JsString "x")]]))
    "SELECT 1 as a, 'x' as b" JsUndefined []
  = ([EClientQuery {| query := "SELECT 1 as a, 'x' as b"; format := "JSONEachRow" |};
      EResultJson],
     inr {| rows := [[("a", JsNumber 1); ("b", JsString "x")]];
            columnTypes := [ {| name := "a"; evidenceType := NUMBER;
                                typeFidelity := "inferred" |};
                             {| name := "b"; evidenceType := STRING;
                                typeFidelity := "inferred" |} ];
            expectedRowCount := 1 |}).
Proof.
  reflexivity.
Qed.

(** A later record keeps its own value: 2.5 in a column inferred from 1. *)
Example second_record_verbatim :
  match snd (runner (answering_client (inr sample_rows)) "SELECT a, b FROM t"
               JsUndefined []) with
  | inr out => option_map (fun r => row_get r "a") (nth_error (rows out) 1)
  | inl _ => None
  end = Some (JsNumber 2.5).
Proof.
  reflexivity.
Qed.

(** A first-row [null] makes the column a STRING column. *)
Example null_first_value_is_string :
  match snd (runner (answering_client (inr [[("n", JsNull)]; [("n", JsNumber 3)]]))
               "SELECT n FROM t" JsUndefined []) with
  | inr out => map evidenceType (columnTypes out)
  | inl _ => []
  end = [STRING].
Proof.
  reflexivity.
Qed.

(** ** The failure path *)

(** C5: when the client's [query] or [json] call fails with [e], the runner
    returns no result and throws that same [e]; the diagnostic output grows
    by exactly one entry, the [console.error] carrying [e], and the query was
    submitted once. *)
Theorem failure_logged_once_and_rethrown
  (client : Client) (queryText : string) (queryPath : JsValue) (t : Trace)
  (e : JsValue) :
  client_response client queryText = inl e ->
  exists t',
    runner client queryText queryPath t = (t', inl e)
    /\ console_of t'
       = console_of t ++ [EConsoleError [JsString "Error executing query:"; e]]
    /\ List.length (filter is_query t') = S (List.length (filter is_query t)).
Proof.
  intros H.
  destruct (runner_throws client queryText queryPath t e H) as (calls & -> & Hc & Hq).
  eexists. split; [reflexivity|]. split.
  - rewrite !console_of_app, Hc. reflexivity.
  - rewrite !filter_app, !length_app, Hq. cbn. lia.
Qed.

Lemma failure_logged_once_and_rethrown_witness :
  exists t',
    runner (rejecting_client network_error) "SELECT 1" JsUndefined []
    = (t', inl network_error)
    /\ console_of t'
       = console_of []
         ++ [EConsoleError [JsString "Error executing query:"; network_error]]
    /\ List.length (filter is_query t')
       = S (List.length (filter is_query (@nil Event))).
Proof.
  apply (failure_logged_once_and_rethrown
           (rejecting_client network_error) "SELECT 1" JsUndefined []
           network_error).
  reflexivity.
Defined.

(** A failure while the answer is materialised takes the same path. *)
Example json_failure_rethrown :
  runner (answering_client (inl network_error)) "SELECT 1" JsUndefined []
  = ([EClientQuery {| query := "SELECT 1"; format := "JSONEachRow" |};
      EResultJson;
      EConsoleError [JsString "Error executing query:"; network_error]],
     inl network_error).
Proof.
  reflexivity.
Qed.

(** ** The connectivity probe *)

(** C6: [testConnection] returns [true] for every options object, with no
    effect at all: no client is built and no server is asked. *)
Theorem testConnection_always_true (opts : ConnectorOptions) (t : Trace) :
  testConnection opts t = (t, inr true).
Proof.
  reflexivity.
Qed.

(** ** Fidelity *)

(** C7: every column type of every returned result has [typeFidelity]
    ["inferred"], and the result has one column type per key of the first
    row. *)
Theorem fidelity_always_inferred
  (client : Client) (queryText : string) (queryPath : JsValue) (t : Trace)
  (result : list Row) :
  client_response client queryText = inr result ->
  exists t' out,
    runner client queryText queryPath t = (t', inr out)
    /\ List.length (columnTypes out)
       = List.length (Object_keys (or_else (nth_error result 0) []))
    /\ Forall (fun c => typeFidelity c = "inferred") (columnTypes out).
Proof.
  intros H.
  rewrite (runner_returns client queryText queryPath t _ H).
  do 2 eexists. split; [reflexivity|]. cbn [columnTypes]. split.
  - apply length_map.
  - apply Forall_map, Forall_forall. reflexivity.
Qed.

Lemma fidelity_always_inferred_witness :
  exists t' out,
    runner (answering_client (inr sample_rows)) "SELECT a, b FROM t" JsUndefined []
    = (t', inr out)
    /\ List.length (columnTypes out)
       = List.length (Object_keys (or_else (nth_error sample_rows 0) []))
    /\ Forall (fun c => typeFidelity c = "inferred") (columnTypes out).
Proof.
  apply (fidelity_always_inferred
           (answering_client (inr sample_rows)) "SELECT a, b FROM t" JsUndefined []
           sample_rows).
  reflexivity.
Defined.

(** ** Construction *)

(** C8, as stated, fails: building a runner writes a [console.debug] entry,
    an effect that is not the set-up of the client handle. *)
Lemma construction_writes_debug_entry :
  fst (getRunner unreachable sample_options [])
  = [EConsoleDebug [JsString "SomeOption = undefined"];
     ECreateClient (client_config sample_options)]
  /\ forallb is_handle_setup (fst (getRunner unreachable sample_options [])) = false.
Proof.
  split; reflexivity.
Qed.

(** C8, amended: for every options object that [createClient] accepts,
    [getRunner] returns the runner over the handle built and throws nothing.
    Its effects are exactly two, in this order: one [console.debug] entry,
    then the creation of the handle.  No query is submitted and no answer is
    read, whether the server can be reached or not. *)
Theorem getRunner_construction
  (createClient : ClientConfig -> JsValue + Client) (opts : ConnectorOptions)
  (t : Trace) (client : Client) :
  createClient (client_config opts) = inr client ->
  exists added,
    added
    = [EConsoleDebug
         [JsString ("SomeOption = " ++ template (obj_get "SomeOption" opts))%string];
       ECreateClient (client_config opts)]
    /\ getRunner createClient opts t = (t ++ added, inr (runner client))
    /\ existsb is_network_io added = false
    /\ filter is_handle_setup added = [ECreateClient (client_config opts)]
    /\ filter (fun ev => negb (is_handle_setup ev)) added
       = [EConsoleDebug
            [JsString ("SomeOption = " ++ template (obj_get "SomeOption" opts))%string]].
Proof.
  intros H. eexists. split; [reflexivity|]. split.
  - rewrite getRunner_eq, H. reflexivity.
  - repeat split.
Qed.

Lemma getRunner_construction_witness :
  exists added,
    added
    = [EConsoleDebug
         [JsString ("SomeOption = "
                    ++ template (obj_get "SomeOption" sample_options))%string];
       ECreateClient (client_config sample_options)]
    /\ getRunner unreachable sample_options []
       = ([] ++ added, inr (runner (rejecting_client network_error)))
    /\ existsb is_network_io added = false
    /\ filter is_handle_setup added = [ECreateClient (client_config sample_options)]
    /\ filter (fun ev => negb (is_handle_setup ev)) added
       = [EConsoleDebug
            [JsString ("SomeOption = "
                       ++ template (obj_get "SomeOption" sample_options))%string]].
Proof.
  apply (getRunner_construction unreachable sample_options []
           (rejecting_client network_error)).
  reflexivity.
Defined.

(** ** The source-file path *)

(** C9: the runner never reads its second argument: with the same client and
    query text, two source-file paths give the same trace and the same
    result or failure, for the runner alone and for a whole session. *)
Theorem queryPath_unused
  (createClient : ClientConfig -> JsValue + Client) (opts : ConnectorOptions)
  (client : Client) (queryText : string) (path1 path2 : JsValue) (t : Trace) :
  runner client queryText path1 t = runner client queryText path2 t
  /\ session createClient opts queryText path1 t
     = session createClient opts queryText path2 t.
Proof.
  split.
  - reflexivity.
  - unfold session, bind. rewrite getRunner_eq.
    destruct (createClient (client_config opts)); reflexivity.
Qed.

(** ** The password *)

(** C10, as stated, fails on the error path: the runner hands the client's
    failure to [console.error] as it is, so a failure that quotes the
    password puts the password into the adapter's output.  Two options
    objects that differ in the password alone then get different entries. *)
Lemma password_in_logged_client_failure :
  same_but_password sample_options other_password = true
  /\ console_of
       (fst (session quoting_credentials sample_options "SELECT 1" JsUndefined []))
     = [EConsoleDebug [JsString "SomeOption = undefined"];
        EConsoleError
          [JsString "Error executing query:";
           JsObject
             [("name", JsString "Error");
              ("message", JsString "Authentication failed: default:hunter2")]]]
  /\ console_of
       (fst (session quoting_credentials sample_options "SELECT 1" JsUndefined []))
     <> console_of
          (fst (session quoting_credentials other_password "SELECT 1" JsUndefined [])).
Proof.
  split; [reflexivity|]. split; [reflexivity|].
  intros H. vm_compute in H. discriminate H.
Qed.

(** C10, amended: the adapter puts the password into its output only by way
    of the failure the client raised.  For two options objects that agree on
    every property but [password]:
    - building the runner writes the same console entries for both, whatever
      the factory does;
    - building it and running a query writes the same console entries for
      both whenever the client raises the same failure, or none, under both;
    - what a session writes is the debug entry of [options.SomeOption] and,
      on failure, one error entry made of the fixed message and the
      client's failure value. *)
Theorem password_logged_only_through_client_failure
  (createClient : ClientConfig -> JsValue + Client)
  (opts1 opts2 : ConnectorOptions)
  (queryText : string) (queryPath : JsValue) (t : Trace) :
  same_but_password opts1 opts2 = true ->
  console_of (fst (getRunner createClient opts1 t))
  = console_of (fst (getRunner createClient opts2 t))
  /\ (query_failure createClient opts1 queryText
      = query_failure createClient opts2 queryText ->
      console_of (fst (session createClient opts1 queryText queryPath t))
      = console_of (fst (session createClient opts2 queryText queryPath t)))
  /\ console_of (fst (session createClient opts1 queryText queryPath t))
     = (console_of t
        ++ [EConsoleDebug
              [JsString ("SomeOption = "
                         ++ template (obj_get "SomeOption" opts1))%string]])
       ++ match query_failure createClient opts1 queryText with
          | Some e => [EConsoleError [JsString "Error executing query:"; e]]
          | None => []
          end.
Proof.
  intros Hsame.
  assert (obj_get "SomeOption" opts1 = obj_get "SomeOption" opts2) as Hsome
    by (apply same_but_password_agree; [assumption|discriminate]).
  split; [|split].
  - rewrite !getRunner_eq. cbn [fst].
    rewrite !console_of_construction. now rewrite Hsome.
  - intros Hfail. rewrite !console_of_session. now rewrite Hsome, Hfail.
  - apply console_of_session.
Qed.

Lemma password_logged_only_through_client_failure_witness :
  console_of (fst (getRunner quoting_credentials sample_options []))
  = console_of (fst (getRunner quoting_credentials other_password []))
  /\ console_of (fst (session unreachable sample_options "SELECT 1" JsUndefined []))
     = console_of (fst (session unreachable other_password "SELECT 1" JsUndefined []))
  /\ console_of (fst (session unreachable sample_options "SELECT 1" JsUndefined []))
     = [EConsoleDebug [JsString "SomeOption = undefined"];
        EConsoleError [JsString "Error executing query:"; network_error]].
Proof.
  destruct (password_logged_only_through_client_failure
              quoting_credentials sample_options other_password
              "SELECT 1" JsUndefined [] eq_refl) as (Hbuild & _ & _).
  destruct (password_logged_only_through_client_failure
              unreachable sample_options other_password
              "SELECT 1" JsUndefined [] eq_refl) as (_ & Hrun & Hentries).
  split; [exact Hbuild|]. split; [apply Hrun; reflexivity|exact Hentries].
Defined.

(** What the two sessions of the witness wrote: the password is in neither. *)
Example console_of_failed_session :
  console_of (fst (session unreachable sample_options "SELECT 1" JsUndefined []))
  = [EConsoleDebug [JsString "SomeOption = undefined"];
     EConsoleError [JsString "Error executing query:"; network_error]].
Proof.
  reflexivity.
Qed.

(** ** Further properties of the runner *)

(** The events one invocation adds, by what the client does. *)
Lemma runner_trace (client : Client) (queryText : string) (queryPath : JsValue)
  (t : Trace) :
  fst (runner client queryText queryPath t)
  = t ++ match client_query client {| query := queryText; format := "JSONEachRow" |} with
         | inl e =>
             [EClientQuery {| query := queryText; format := "JSONEachRow" |};
              EConsoleError [JsString "Error executing query:"; e]]
         | inr rs =>
             match json rs with
             | inl e =>
                 [EClientQuery {| query := queryText; format := "JSONEachRow" |};
                  EResultJson;
                  EConsoleError [JsString "Error executing query:"; e]]
             | inr _ =>
                 [EClientQuery {| query := queryText; format := "JSONEachRow" |};
                  EResultJson]
             end
         end.
Proof.
  destruct (client_query client _) as [e|rs] eqn:Hq.
  - unfold runner, try_catch; cbv zeta.
    erewrite bind_throws by (unfold call; rewrite Hq; reflexivity).
    cbn. rewrite <- app_assoc. reflexivity.
  - destruct (json rs) as [e|result] eqn:Hj.
    + unfold runner, try_catch; cbv zeta.
      erewrite bind_returns by (unfold call; rewrite Hq; reflexivity).
      erewrite bind_throws by (unfold call; rewrite Hj; reflexivity).
      cbn. rewrite <- !app_assoc. reflexivity.
    + assert (client_response client queryText = inr result) as H
        by (unfold client_response; now rewrite Hq).
      rewrite (runner_returns client queryText queryPath t result H).
      reflexivity.
Qed.

(** X1: whatever the client does, one invocation of the runner submits
    exactly one query, with the query text as given and the format
    [JSONEachRow]; it reads the answer at most once and builds no client
    handle of its own. *)
Theorem runner_submits_one_query
  (client : Client) (queryText : string) (queryPath : JsValue) (t : Trace) :
  exists added,
    fst (runner client queryText queryPath t) = t ++ added
    /\ filter is_query added
       = [EClientQuery {| query := queryText; format := "JSONEachRow" |}]
    /\ List.length (filter is_json added) <= 1
    /\ filter is_handle_setup added = [].
Proof.
  eexists. split; [apply runner_trace|].
  destruct (client_query client _) as [e|rs]; [|destruct (json rs)];
    cbn; repeat split; lia.
Qed.

(** X2: when [client.query] itself is rejected, [rows.json()] is never
    called: the runner goes from the submission straight to the error entry
    and the rethrow. *)
Theorem json_skipped_when_query_rejected
  (client : Client) (queryText : string) (queryPath : JsValue) (t : Trace)
  (e : JsValue) :
  client_query client {| query := queryText; format := "JSONEachRow" |} = inl e ->
  runner client queryText queryPath t
  = (t ++ [EClientQuery {| query := queryText; format := "JSONEachRow" |};
           EConsoleError [JsString "Error executing query:"; e]],
     inl e)
  /\ filter is_json (fst (runner client queryText queryPath t)) = filter is_json t.
Proof.
  intros Hq.
  assert (runner client queryText queryPath t
          = (t ++ [EClientQuery {| query := queryText; format := "JSONEachRow" |};
                   EConsoleError [JsString "Error executing query:"; e]],
             inl e)) as Hrun.
  { unfold runner, try_catch; cbv zeta.
    erewrite bind_throws by (unfold call; rewrite Hq; reflexivity).
    cbn. rewrite <- app_assoc. reflexivity. }
  split; [exact Hrun|].
  rewrite Hrun. cbn [fst]. rewrite filter_app. cbn. apply app_nil_r.
Qed.

Lemma json_skipped_when_query_rejected_witness :
  runner (rejecting_client network_error) "SELECT 1" JsUndefined []
  = ([] ++ [EClientQuery {| query := "SELECT 1"; format := "JSONEachRow" |};
            EConsoleError [JsString "Error executing query:"; network_error]],
     inl network_error)
  /\ filter is_json (fst (runner (rejecting_client network_error) "SELECT 1"
                            JsUndefined []))
     = filter is_json [].
Proof.
  apply (json_skipped_when_query_rejected
           (rejecting_client network_error) "SELECT 1" JsUndefined []
           network_error).
  reflexivity.
Defined.

(** X3: a run that succeeds writes nothing to the console: its only events
    are the submission of the query and the reading of the answer. *)
Theorem success_is_silent
  (client : Client) (queryText : string) (queryPath : JsValue) (t : Trace)
  (result : list Row) :
  client_response client queryText = inr result ->
  fst (runner client queryText queryPath t)
  = t ++ [EClientQuery {| query := queryText; format := "JSONEachRow" |};
          EResultJson]
  /\ console_of (fst (runner client queryText queryPath t)) = console_of t.
Proof.
  intros H.
  rewrite (runner_returns client queryText queryPath t result H). cbn [fst].
  split; [reflexivity|].
  rewrite console_of_app. cbn. apply app_nil_r.
Qed.

Lemma success_is_silent_witness :
  fst (runner (answering_client (inr sample_rows)) "SELECT a, b FROM t" JsUndefined [])
  = [] ++ [EClientQuery {| query := "SELECT a, b FROM t"; format := "JSONEachRow" |};
           EResultJson]
  /\ console_of (fst (runner (answering_client (inr sample_rows)) "SELECT a, b FROM t"
                        JsUndefined []))
     = console_of [].
Proof.
  apply (success_is_silent
           (answering_client (inr sample_rows)) "SELECT a, b FROM t" JsUndefined []
           sample_rows).
  reflexivity.
Defined.

(** X4: the runner has no failure of its own.  If a run throws [e], then [e]
    is what the client's [query] or [json] call raised; reading
    [result[0][key]] never throws, not even on an empty answer. *)
Theorem runner_throws_only_client_failures
  (client : Client) (queryText : string) (queryPath : JsValue) (t : Trace)
  (e : JsValue) :
  snd (runner client queryText queryPath t) = inl e ->
  client_response client queryText = inl e.
Proof.
  intros Hthrown.
  destruct (client_response client queryText) as [e'|result] eqn:H.
  - destruct (runner_throws client queryText queryPath t e' H) as (calls & Hrun & _).
    rewrite Hrun in Hthrown. cbn [snd] in Hthrown. congruence.
  - rewrite (runner_returns client queryText queryPath t result H) in Hthrown.
    discriminate.
Qed.

Lemma runner_throws_only_client_failures_witness :
  client_response (answering_client (inl network_error)) "SELECT 1" = inl network_error.
Proof.
  apply (runner_throws_only_client_failures
           (answering_client (inl network_error)) "SELECT 1" JsUndefined []
           network_error).
  reflexivity.
Defined.

(** ** Further properties of the column types *)

(** X5: the runner only ever infers NUMBER or STRING.  No column is given
    the kinds BOOLEAN or DATE of [EvidenceType], whatever the first row
    holds. *)
Theorem kinds_are_number_or_string
  (client : Client) (queryText : string) (queryPath : JsValue) (t : Trace)
  (result : list Row) :
  client_response client queryText = inr result ->
  exists t' out,
    runner client queryText queryPath t = (t', inr out)
    /\ Forall (fun c => evidenceType c = NUMBER \/ evidenceType c = STRING)
              (columnTypes out)
    /\ ~ In BOOLEAN (map evidenceType (columnTypes out))
    /\ ~ In DATE (map evidenceType (columnTypes out)).
Proof.
  intros H.
  rewrite (runner_returns client queryText queryPath t result H).
  do 2 eexists. split; [reflexivity|]. cbn [columnTypes].
  assert (forall key v, evidenceType (descriptor key v) = NUMBER
                        \/ evidenceType (descriptor key v) = STRING) as Hkind.
  { intros key v. unfold descriptor; cbn [evidenceType].
    destruct (String.eqb (typeof v) "number"); auto. }
  split; [|split].
  - apply Forall_map, Forall_forall. intros key _. apply Hkind.
  - rewrite map_map. intros Hin. apply in_map_iff in Hin as (key & Hk & _).
    destruct (Hkind key (row_get (or_else (nth_error result 0) []) key));
      congruence.
  - rewrite map_map. intros Hin. apply in_map_iff in Hin as (key & Hk & _).
    destruct (Hkind key (row_get (or_else (nth_error result 0) []) key));
      congruence.
Qed.

Lemma kinds_are_number_or_string_witness :
  exists t' out,
    runner (answering_client (inr [[("ok", JsBool true); ("day", JsString "2024-01-31")]]))
      "SELECT ok, day FROM t" JsUndefined []
    = (t', inr out)
    /\ Forall (fun c => evidenceType c = NUMBER \/ evidenceType c = STRING)
              (columnTypes out)
    /\ ~ In BOOLEAN (map evidenceType (columnTypes out))
    /\ ~ In DATE (map evidenceType (columnTypes out)).
Proof.
  apply (kinds_are_number_or_string
           (answering_client (inr [[("ok", JsBool true); ("day", JsString "2024-01-31")]]))
           "SELECT ok, day FROM t" JsUndefined []
           [[("ok", JsBool true); ("day", JsString "2024-01-31")]]).
  reflexivity.
Defined.

(** X6: column names are unique.  When the keys of the first row are
    distinct, as the keys of an object are, no two column types of the
    result have the same name. *)
Theorem column_names_unique
  (client : Client) (queryText : string) (queryPath : JsValue) (t : Trace)
  (result : list Row) :
  client_response client queryText = inr result ->
  distinct (Object_keys (or_else (nth_error result 0) [])) = true ->
  exists t' out,
    runner client queryText queryPath t = (t', inr out)
    /\ NoDup (map name (columnTypes out)).
Proof.
  intros H Hkeys.
  rewrite (runner_returns client queryText queryPath t result H).
  do 2 eexists. split; [reflexivity|]. cbn [columnTypes].
  rewrite map_map. cbn [descriptor name]. rewrite map_id.
  now apply distinct_NoDup.
Qed.

Lemma column_names_unique_witness :
  exists t' out,
    runner (answering_client (inr sample_rows)) "SELECT a, b FROM t" JsUndefined []
    = (t', inr out)
    /\ NoDup (map name (columnTypes out)).
Proof.
  apply (column_names_unique
           (answering_client (inr sample_rows)) "SELECT a, b FROM t" JsUndefined []
           sample_rows);
    reflexivity.
Defined.

(** X7: a result has no column types exactly when the answer is empty or
    its first record has no keys; in the second case the rows are still
    returned and counted. *)
Theorem no_columns_iff_no_first_row_keys
  (client : Client) (queryText : string) (queryPath : JsValue) (t : Trace)
  (result : list Row) :
  client_response client queryText = inr result ->
  exists t' out,
    runner client queryText queryPath t = (t', inr out)
    /\ (columnTypes out = [] <-> result = [] \/ exists rest, result = [] :: rest)
    /\ (forall rest, result = [] :: rest ->
          expectedRowCount out = S (List.length rest)).
Proof.
  intros H.
  rewrite (runner_returns client queryText queryPath t result H).
  do 2 eexists. split; [reflexivity|]. cbn [columnTypes expectedRowCount].
  split.
  - destruct result as [|[|[k v] first] rest]; cbn; split; intros Hx.
    + now left.
    + reflexivity.
    + right. now exists rest.
    + reflexivity.
    + discriminate.
    + destruct Hx as [Hx|[rest' Hx]]; discriminate.
  - intros rest ->. reflexivity.
Qed.

Lemma no_columns_iff_no_first_row_keys_witness :
  exists t' out,
    runner (answering_client (inr keyless_rows)) "SELECT" JsUndefined [] = (t', inr out)
    /\ (columnTypes out = []
        <-> keyless_rows = [] \/ exists rest, keyless_rows = [] :: rest)
    /\ (forall rest, keyless_rows = [] :: rest ->
          expectedRowCount out = S (List.length rest)).
Proof.
  apply (no_columns_iff_no_first_row_keys
           (answering_client (inr keyless_rows)) "SELECT" JsUndefined []
           keyless_rows).
  reflexivity.
Defined.

(** ** Further properties of the construction *)

(** X8: [getRunner] does not catch what [createClient] throws.  When the
    factory refuses the configuration with [e], [getRunner] throws that [e]
    and returns no runner; the debug entry was written before the call, and
    no error entry is written for the failure. *)
Theorem getRunner_rethrows_createClient_failure
  (createClient : ClientConfig -> JsValue + Client) (opts : ConnectorOptions)
  (t : Trace) (e : JsValue) :
  createClient (client_config opts) = inl e ->
  snd (getRunner createClient opts t) = inl e
  /\ console_of (fst (getRunner createClient opts t))
     = console_of t
       ++ [EConsoleDebug
             [JsString ("SomeOption = " ++ template (obj_get "SomeOption" opts))%string]]
  /\ existsb is_network_io (fst (getRunner createClient opts t))
     = existsb is_network_io t.
Proof.
  intros H. rewrite getRunner_eq, H. cbn [fst snd].
  split; [reflexivity|]. split.
  - apply console_of_construction.
  - rewrite existsb_app. cbn. apply orb_false_r.
Qed.

Lemma getRunner_rethrows_createClient_failure_witness :
  snd (getRunner (refusing invalid_url) sample_options []) = inl invalid_url
  /\ console_of (fst (getRunner (refusing invalid_url) sample_options []))
     = console_of []
       ++ [EConsoleDebug
             [JsString ("SomeOption = "
                        ++ template (obj_get "SomeOption" sample_options))%string]]
  /\ existsb is_network_io (fst (getRunner (refusing invalid_url) sample_options []))
     = existsb is_network_io [].
Proof.
  apply (getRunner_rethrows_createClient_failure
           (refusing invalid_url) sample_options [] invalid_url).
  reflexivity.
Defined.

(** X9: of the options object, the client handle sees [url], [username] and
    [password] only.  Two options objects that agree on these three hand the
    same configuration to [createClient] and get the same runner or the
    same failure, whatever else they hold. *)
Theorem getRunner_reads_three_options
  (createClient : ClientConfig -> JsValue + Client) (opts1 opts2 : ConnectorOptions)
  (t : Trace) :
  obj_get "url" opts1 = obj_get "url" opts2 ->
  obj_get "username" opts1 = obj_get "username" opts2 ->
  obj_get "password" opts1 = obj_get "password" opts2 ->
  filter is_handle_setup (fst (getRunner createClient opts1 t))
  = filter is_handle_setup (fst (getRunner createClient opts2 t))
  /\ snd (getRunner createClient opts1 t) = snd (getRunner createClient opts2 t).
Proof.
  intros Hurl Huser Hpw.
  assert (client_config opts1 = client_config opts2) as Hcfg
    by (unfold client_config; now rewrite Hurl, Huser, Hpw).
  rewrite !getRunner_eq, Hcfg. cbn [fst snd].
  split; [|reflexivity].
  rewrite !filter_app. reflexivity.
Qed.

Lemma getRunner_reads_three_options_witness :
  filter is_handle_setup (fst (getRunner unreachable sample_options []))
  = filter is_handle_setup (fst (getRunner unreachable more_options []))
  /\ snd (getRunner unreachable sample_options [])
     = snd (getRunner unreachable more_options []).
Proof.
  apply (getRunner_reads_three_options unreachable sample_options more_options []);
    reflexivity.
Defined.

(** X10: the console output of building a runner and running a query is
    decided by [options.SomeOption] and by the failure the client raised, if
    any.  Sessions that agree on these two write the same entries, though
    they may differ in the factory, in every other option (url, username),
    in the query text and in the source-file path. *)
Theorem console_decided_by_SomeOption_and_failure
  (createClient1 createClient2 : ClientConfig -> JsValue + Client)
  (opts1 opts2 : ConnectorOptions) (q1 q2 : string) (path1 path2 : JsValue)
  (t : Trace) :
  obj_get "SomeOption" opts1 = obj_get "SomeOption" opts2 ->
  query_failure createClient1 opts1 q1 = query_failure createClient2 opts2 q2 ->
  console_of (fst (session createClient1 opts1 q1 path1 t))
  = console_of (fst (session createClient2 opts2 q2 path2 t)).
Proof.
  intros Hsome Hfail.
  rewrite !console_of_session. now rewrite Hsome, Hfail.
Qed.

Lemma console_decided_by_SomeOption_and_failure_witness :
  console_of (fst (session unreachable sample_options "SELECT 1" JsUndefined []))
  = console_of (fst (session (fun _ => inr (answering_client (inl network_error)))
                       [("url", "http://ch.example:8123")] "SELECT 2"
                       (JsString "q.sql") [])).
Proof.
  apply (console_decided_by_SomeOption_and_failure
           unreachable (fun _ => inr (answering_client (inl network_error)))
           sample_options [("url", "http://ch.example:8123")]
           "SELECT 1" "SELECT 2" JsUndefined (JsString "q.sql") []);
    reflexivity.
Defined.

(** X11: for an options object made of declared options only (the exported
    [options] names url, username and password), the debug entry of the
    construction is always the same text, [SomeOption = undefined]. *)
Theorem debug_entry_of_declared_options
  (createClient : ClientConfig -> JsValue + Client) (opts : ConnectorOptions)
  (t : Trace) :
  declared opts = true ->
  console_of (fst (getRunner createClient opts t))
  = console_of t ++ [EConsoleDebug [JsString "SomeOption = undefined"]].
Proof.
  intros Hdecl.
  assert (obj_get "SomeOption" opts = None) as Hnone.
  { apply obj_get_absent. intros Hin.
    unfold declared in Hdecl. rewrite forallb_forall in Hdecl.
    specialize (Hdecl _ Hin). discriminate. }
  rewrite getRunner_eq. cbn [fst].
  rewrite console_of_construction, Hnone. reflexivity.
Qed.

Lemma debug_entry_of_declared_options_witness :
  console_of (fst (getRunner unreachable sample_options []))
  = console_of [] ++ [EConsoleDebug [JsString "SomeOption = undefined"]].
Proof.
  apply (debug_entry_of_declared_options unreachable sample_options []).
  reflexivity.
Defined.
